(** * N/U algebra and sequential aggregation: a shallow embedding

    This development embeds the numeric core of the repository
    ([07_code/nu_algebra.py] and the aggregation operators of
    [07_code/hubble_analysis.py]) and proves the properties its
    specification states about it.

    Numbers.  The Python code computes on [float].  The specification
    speaks of "any finite real" and of results "in exact arithmetic", so a
    float is modelled here by an exact rational [Q]: every definition below
    is executable, comparisons are decidable, and Python's [==] on floats is
    the numeric equality [Qeq] (written [==]).  Rounding, infinities and NaN
    are outside this model.

    Exceptions.  A function that can [raise] returns a [result]; the
    exception carries the message of the source. *)

From Stdlib Require Import QArith Qabs Lqa ZArith List String Bool Lia.
From Stdlib Require Import Permutation Qminmax Qpower.
Import ListNotations.

Local Open Scope Q_scope.

(** ** Python built-ins on numbers *)

Module Py.

(** [x < y] on floats. *)
Definition ltb (x y : Q) : bool := negb (Qle_bool y x).

(** [x == y] on floats. *)
Definition eqb (x y : Q) : bool := Qeq_bool x y.

(** [max(a, b)]: the first argument is kept unless the second is
    strictly greater. *)
Definition max (a b : Q) : Q := if ltb a b then b else a.

(** [min(a, b)]: the first argument is kept unless the second is
    strictly smaller. *)
Definition min (a b : Q) : Q := if ltb b a then b else a.

(** [abs(x)]. *)
Definition abs (x : Q) : Q := Qabs x.

(** [sum(xs)]: starts from 0 and adds from the left. *)
Definition sum (xs : list Q) : Q := fold_left Qplus xs 0.

(** [len(xs)]. *)
Definition len {A : Type} (xs : list A) : nat := List.length xs.

End Py.

(** ** Exceptions and fallible computations *)

Inductive exn : Type :=
| ValueError (msg : string)
| IndexError.

Inductive result (A : Type) : Type :=
| Ok (a : A)
| Raise (e : exn).

Arguments Ok {A} a.
Arguments Raise {A} e.

Definition bind {A B : Type} (r : result A) (k : A -> result B) : result B :=
  match r with
  | Ok a => k a
  | Raise e => Raise e
  end.

Notation "x <- r ;; k" := (bind r (fun x => k))
  (at level 61, r at next level, right associativity).
Notation "' p <- r ;; k" := (bind r (fun p => k))
  (at level 61, p pattern, r at next level, right associativity).

(** [xs[i]] for a non-negative index: [IndexError] out of range. *)
Definition getitem {A : Type} (xs : list A) (i : nat) : result A :=
  match nth_error xs i with
  | Some x => Ok x
  | None => Raise IndexError
  end.

(** [for i in range(lo, hi): s = body(i, s)], stopping at the first
    exception.  [for_range_from count i] runs [count] iterations starting
    at index [i]. *)
Fixpoint for_range_from {S : Type} (count i : nat)
    (body : nat -> S -> result S) (s : S) : result S :=
  match count with
  | O => Ok s
  | Datatypes.S count' =>
      s' <- body i s ;; for_range_from count' (Datatypes.S i) body s'
  end.

Definition for_range {S : Type} (lo hi : nat)
    (body : nat -> S -> result S) (s : S) : result S :=
  for_range_from (hi - lo) lo body s.

(** [for _ in range(k): s = body(s)] with a body that cannot raise. *)
Fixpoint repeat_loop {S : Type} (k : nat) (body : S -> S) (s : S) : S :=
  match k with
  | O => s
  | Datatypes.S k' => repeat_loop k' body (body s)
  end.

(** The error taxonomy of the specification.  The source raises
    [ValueError] everywhere; the kinds are told apart by the message. *)
Inductive ErrorKind : Type :=
| InvalidExponent
| LengthMismatch
| EmptyInput
| ZeroTotalWeight.

Definition msg_pow : string := "Only positive integer exponents supported".
Definition msg_empty : string := "Cannot compute mean of empty list".
Definition msg_weights : string := "Weights must match number of N/U pairs".
Definition msg_zero : string := "Total weight cannot be zero".
Definition msg_lengths : string := "Values and errors must have same length".

Definition kind_of (e : exn) : option ErrorKind :=
  match e with
  | ValueError m =>
      if String.eqb m msg_pow then Some InvalidExponent
      else if String.eqb m msg_empty then Some EmptyInput
      else if String.eqb m msg_weights then Some LengthMismatch
      else if String.eqb m msg_lengths then Some LengthMismatch
      else if String.eqb m msg_zero then Some ZeroTotalWeight
      else None
  | IndexError => None
  end.

(** [fails_with r k]: the computation raised, and the exception is of
    kind [k]; no value is returned. *)
Definition fails_with {A : Type} (r : result A) (k : ErrorKind) : Prop :=
  match r with
  | Ok _ => False
  | Raise e => kind_of e = Some k
  end.

Definition succeeds {A : Type} (r : result A) : Prop :=
  match r with
  | Ok _ => True
  | Raise _ => False
  end.

(** ** [nu_algebra.py] *)

Module nu_algebra.

(** An object of class [NU]: the attributes [n] and [u]. *)
Record NU : Type := Build { n : Q; u : Q }.

(** [NU.__init__(n, u)]: [self.n = float(n)];
    [self.u = max(0.0, float(u))]. *)
Definition __init__ (n0 u0 : Q) : NU :=
  {| n := n0; u := Py.max 0 u0 |}.

(** The call [NU(n, u)]. *)
Abbreviation NU_init := __init__.

(** [NU.__eq__]: exact match of both components. *)
Definition __eq__ (self other : NU) : bool :=
  Py.eqb (n self) (n other) && Py.eqb (u self) (u other).

(** *** Primary operations *)

Definition add (self other : NU) : NU :=
  NU_init (n self + n other) (u self + u other).

Definition sub (self other : NU) : NU :=
  NU_init (n self - n other) (u self + u other).

Definition mul (self other : NU) : NU :=
  NU_init (n self * n other)
          (Py.abs (n self) * u other + Py.abs (n other) * u self).

Definition scalar (self : NU) (a : Q) : NU :=
  NU_init (a * n self) (Py.abs a * u self).

Definition affine (self : NU) (a b : Q) : NU :=
  NU_init (a * n self + b) (Py.abs a * u self).

(** *** Special operators *)

Definition catch (self : NU) : NU :=
  NU_init 0 (Py.abs (n self) + u self).

Definition flip (self : NU) : NU :=
  NU_init (u self) (Py.abs (n self)).

(** *** Properties *)

Definition invariant (self : NU) : Q := Py.abs (n self) + u self.

Definition lower_bound (self : NU) : Q := n self - u self.

Definition upper_bound (self : NU) : Q := n self + u self.


(** [relative_uncertainty] returns [float('inf')] when [n == 0]; the
    infinity is the value [None] here. *)
Definition relative_uncertainty (self : NU) : option Q :=
  if Py.eqb (n self) 0 then None
  else Some (u self / Py.abs (n self)).

Definition is_sign_stable (self : NU) : bool :=
  Py.ltb (u self) (Py.abs (n self)).

(** *** Convenience methods *)

(** An operand of an overloaded operator: an NU value or a bare
    number. *)
Inductive operand : Type :=
| OfNU (x : NU)
| OfFloat (a : Q).

Definition __add__ (self : NU) (other : operand) : NU :=
  match other with
  | OfNU o => add self o
  | OfFloat a => affine self 1 a
  end.

Definition __sub__ (self : NU) (other : operand) : NU :=
  match other with
  | OfNU o => sub self o
  | OfFloat a => affine self 1 (- a)
  end.

Definition __mul__ (self : NU) (other : operand) : NU :=
  match other with
  | OfNU o => mul self o
  | OfFloat a => scalar self a
  end.

Definition __rmul__ (self : NU) (other : Q) : NU := scalar self other.

Definition __neg__ (self : NU) : NU := scalar self (-1).

Definition __abs__ (self : NU) : NU := NU_init (Py.abs (n self)) (u self).

(** [NU.pow]: [result = self], then [exponent - 1] times
    [result = result.mul(self)]. *)
Definition pow (self : NU) (exponent : Z) : result NU :=
  if (exponent <? 1)%Z then Raise (ValueError msg_pow)
  else Ok (repeat_loop (Z.to_nat (exponent - 1))
                       (fun result => mul result self) self).

(** *** Module-level functions *)

Definition cumulative_sum (nu_pairs : list NU) : NU :=
  match nu_pairs with
  | [] => NU_init 0 0
  | first :: rest => fold_left (fun result nu => add result nu) rest first
  end.

Definition cumulative_product (nu_pairs : list NU) : NU :=
  match nu_pairs with
  | [] => NU_init 1 0
  | first :: rest => fold_left (fun result nu => mul result nu) rest first
  end.

(** [weighted_mean(nu_pairs, weights=None)]. *)
Definition weighted_mean (nu_pairs : list NU) (weights : option (list Q))
  : result NU :=
  match nu_pairs with
  | [] => Raise (ValueError msg_empty)
  | _ :: _ =>
      let weights :=
        match weights with
        | None => repeat 1 (Py.len nu_pairs)
        | Some w => w
        end in
      if negb (Py.len weights =? Py.len nu_pairs)%nat
      then Raise (ValueError msg_weights)
      else
        let total_weight := Py.sum weights in
        if Py.eqb total_weight 0 then Raise (ValueError msg_zero)
        else
          let weighted_sum :=
            cumulative_sum
              (map (fun '(nu, w) => scalar nu w) (combine nu_pairs weights)) in
          Ok (scalar weighted_sum (1 / total_weight))
  end.

(** *** Compatibility aliases *)

Definition NU_add (x y : NU) : NU := add x y.
Definition NU_mul (x y : NU) : NU := mul x y.
Definition NU_scalar (a : Q) (x : NU) : NU := scalar x a.

End nu_algebra.

(** ** [hubble_analysis.py]: aggregation operators *)

Module hubble_analysis.

(** The columns [n] and [u] of [H0_DATA]. *)
Definition H0_DATA_n : list Q := [67.4; 73.04; 73.3; 73.9; 67.19; 69.6].
Definition H0_DATA_u : list Q := [0.5; 1.04; 1.8; 3.0; 0.65; 2.5].

Definition aggregate_pair (v1 e1 v2 e2 : Q) : Q * Q :=
  let agg_val := (v1 + v2) * (1 # 2) in
  let prop_err := (e1 + e2) * (1 # 2) + Py.abs (v1 - v2) * (1 # 2) in
  (agg_val, prop_err).

Definition aggregate_sequential (values errors : list Q) : result (Q * Q) :=
  if negb (Py.len values =? Py.len errors)%nat
  then Raise (ValueError msg_lengths)
  else if (Py.len values =? 0)%nat then Ok (0, 0)
  else
    result_val <- getitem values 0 ;;
    result_err <- getitem errors 0 ;;
    for_range 1 (Py.len values)
      (fun i '(result_val, result_err) =>
         v <- getitem values i ;;
         e <- getitem errors i ;;
         Ok (aggregate_pair result_val result_err v e))
      (result_val, result_err).


(** A row of the measurement table: the columns [source], [n], [u]. *)
Record row : Type := Row { source : string; row_n : Q; row_u : Q }.

(** An entry of the tension table.  The column [tension_sigma] needs a
    square root and is not part of this model. *)
Record tension : Type := Tension {
  source_1 : string;
  source_2 : string;
  delta_H0 : Q;
  overlaps : bool
}.

Definition calculate_tension (df : list row) : result (list tension) :=
  let n := Py.len df in
  for_range 0 n
    (fun i tensions =>
       for_range (i + 1) n
         (fun j tensions =>
            ri <- getitem df i ;;
            rj <- getitem df j ;;
            let n1 := row_n ri in
            let u1 := row_u ri in
            let n2 := row_n rj in
            let u2 := row_u rj in
            Ok (tensions ++
                [ {| source_1 := source ri;
                     source_2 := source rj;
                     delta_H0 := Py.abs (n1 - n2);
                     overlaps :=
                       negb (Py.ltb (Py.min (n1 + u1) (n2 + u2))
                                    (Py.max (n1 - u1) (n2 - u2))) |} ]))
         tensions)
    [].

(** A row of the table of aggregation steps: the keys [step], [source],
    [n], [u], [interval_low], [interval_high]. *)
Record step_row : Type := StepRow {
  step : nat;
  step_source : string;
  step_n : Q;
  step_u : Q;
  interval_low : Q;
  interval_high : Q
}.

(** [calculate_aggregated_h0(df)]: the same fold as
    [aggregate_sequential], over the columns [n] and [u] of the table,
    recording every intermediate result. *)
Definition calculate_aggregated_h0 (df : list row)
  : result (Q * Q * list step_row) :=
  let values := map row_n df in
  let errors := map row_u df in
  let steps := [] in
  current_val <- getitem values 0 ;;
  current_err <- getitem errors 0 ;;
  r0 <- getitem df 0 ;;
  let steps :=
    steps ++ [ {| step := 0;
                  step_source := source r0;
                  step_n := current_val;
                  step_u := current_err;
                  interval_low := current_val - current_err;
                  interval_high := current_val + current_err |} ] in
  for_range 1 (Py.len values)
    (fun i '(current_val, current_err, steps) =>
       v <- getitem values i ;;
       e <- getitem errors i ;;
       let '(current_val, current_err) :=
         aggregate_pair current_val current_err v e in
       ri <- getitem df i ;;
       Ok (current_val, current_err,
           steps ++ [ {| step := i;
                         step_source := "After combining " ++ source ri;
                         step_n := current_val;
                         step_u := current_err;
                         interval_low := current_val - current_err;
                         interval_high := current_val + current_err |} ]))
    (current_val, current_err, steps).

End hubble_analysis.

Import nu_algebra hubble_analysis.

(** The specification's names for negation and absolute value. *)
Abbreviation negate := __neg__.
Abbreviation absolute := __abs__.

(** * Notions used by the statements *)

(** The class invariant of [NU]: the uncertainty is non-negative. *)
Definition wf (x : NU) : Prop := 0 <= u x.

(** Equality of NU values as [NU.__eq__] decides it. *)
Definition NU_equiv (x y : NU) : Prop := n x == n y /\ u x == u y.

(** The specification's reading of the two folds: a left fold over the
    whole input, seeded with the neutral element. *)
Definition cumulativeSum_spec (xs : list NU) : NU :=
  fold_left add xs (NU_init 0 0).

Definition cumulativeProduct_spec (xs : list NU) : NU :=
  fold_left mul xs (NU_init 1 0).

(** The specification's reading of the weighted mean:
    [scalar(1/totalWeight)] applied to the cumulative sum of
    [scalar(weights[i], xs[i])], [i] running over the indices of [xs]. *)
Definition scaled_by_index (xs : list NU) (weights : list Q) : list NU :=
  map (fun i => NU_scalar (nth i weights 0) (nth i xs (NU_init 0 0)))
      (seq 0 (Py.len xs)).

Definition weightedMean_spec (xs : list NU) (weights : list Q) : NU :=
  let totalWeight := Py.sum weights in
  NU_scalar (1 / totalWeight) (cumulative_sum (scaled_by_index xs weights)).

(** Python's [==] on the pair returned by the aggregation functions. *)
Definition pair_eq (p q : Q * Q) : bool :=
  Py.eqb (fst p) (fst q) && Py.eqb (snd p) (snd q).

(** The specification's pairwise combinator on (value, uncertainty)
    pairs. *)
Definition combinator (p q : Q * Q) : Q * Q :=
  let '(v1, e1) := p in
  let '(v2, e2) := q in
  ((v1 + v2) / 2, (e1 + e2) / 2 + Qabs (v1 - v2) / 2).

(** The body of the loop of [aggregate_sequential]. *)
Definition fold_body (values errors : list Q) (i : nat) (acc : Q * Q)
  : result (Q * Q) :=
  let '(result_val, result_err) := acc in
  v <- getitem values i ;;
  e <- getitem errors i ;;
  Ok (aggregate_pair result_val result_err v e).

(** The [overlaps] expression of [calculate_tension], as a function of the
    two measurements. *)
Definition overlaps_flag (n1 u1 n2 u2 : Q) : bool :=
  negb (Py.ltb (Py.min (n1 + u1) (n2 + u2)) (Py.max (n1 - u1) (n2 - u2))).

(** The entry that [calculate_tension] appends for the rows [ri], [rj]. *)
Definition tension_of (ri rj : row) : tension :=
  {| source_1 := source ri;
     source_2 := source rj;
     delta_H0 := Py.abs (row_n ri - row_n rj);
     overlaps := overlaps_flag (row_n ri) (row_u ri) (row_n rj) (row_u rj) |}.

(** Every row paired with every later row, in table order. *)
Fixpoint all_pairs (df : list row) : list tension :=
  match df with
  | [] => []
  | r :: rest => map (tension_of r) rest ++ all_pairs rest
  end.

(** The bodies of the two nested loops of [calculate_tension]. *)
Definition inner_body (df : list row) (i j : nat) (tensions : list tension)
  : result (list tension) :=
  ri <- getitem df i ;;
  rj <- getitem df j ;;
  Ok (tensions ++ [tension_of ri rj]).

Definition outer_body (df : list row) (i : nat) (tensions : list tension)
  : result (list tension) :=
  for_range (i + 1) (Py.len df) (inner_body df i) tensions.

(** ** Notions used by the further properties *)

(** [a] lies in the conservative interval [[n - u, n + u]] of [x]. *)
Definition contains (x : NU) (a : Q) : Prop :=
  lower_bound x <= a /\ a <= upper_bound x.



(** One step of the fold of [aggregate_sequential], on pairs. *)
Definition agg_step (acc p : Q * Q) : Q * Q :=
  aggregate_pair (fst acc) (snd acc) (fst p) (snd p).

(** The row that [calculate_aggregated_h0] records for a state. *)
Definition step_of (i : nat) (label : string) (acc : Q * Q) : step_row :=
  {| step := i;
     step_source := label;
     step_n := fst acc;
     step_u := snd acc;
     interval_low := fst acc - snd acc;
     interval_high := fst acc + snd acc |}.

(** The body of the loop of [calculate_aggregated_h0]. *)
Definition h0_body (df : list row) (i : nat)
    (st : Q * Q * list step_row) : result (Q * Q * list step_row) :=
  let '(current_val, current_err, steps) := st in
  v <- getitem (map row_n df) i ;;
  e <- getitem (map row_u df) i ;;
  let '(current_val, current_err) :=
    aggregate_pair current_val current_err v e in
  ri <- getitem df i ;;
  Ok (current_val, current_err,
      steps ++ [ {| step := i;
                    step_source := "After combining " ++ source ri;
                    step_n := current_val;
                    step_u := current_err;
                    interval_low := current_val - current_err;
                    interval_high := current_val + current_err |} ]).

(** The intermediate results of the fold from the state [acc] over the
    rows [rest], numbered from [i]. *)
Fixpoint steps_from (i : nat) (acc : Q * Q) (rest : list row)
  : list step_row :=
  match rest with
  | [] => []
  | r :: rest' =>
      let acc' := agg_step acc (row_n r, row_u r) in
      step_of i ("After combining " ++ source r) acc'
        :: steps_from (S i) acc' rest'
  end.




(** * Properties *)

(** ** Arithmetic of the built-ins *)

Lemma ltb_true_iff (x y : Q) : Py.ltb x y = true <-> x < y.
Proof.
  unfold Py.ltb. rewrite negb_true_iff, <- not_true_iff_false, Qle_bool_iff.
  split; [apply Qnot_le_lt | apply Qlt_not_le].
Qed.

Lemma ltb_false_iff (x y : Q) : Py.ltb x y = false <-> y <= x.
Proof.
  unfold Py.ltb. rewrite negb_false_iff. apply Qle_bool_iff.
Qed.

Lemma eqb_true_iff (x y : Q) : Py.eqb x y = true <-> x == y.
Proof. apply Qeq_bool_iff. Qed.

Lemma eqb_false_iff (x y : Q) : Py.eqb x y = false <-> ~ x == y.
Proof.
  rewrite <- not_true_iff_false, eqb_true_iff. tauto.
Qed.

Lemma Qabs_cases (a : Q) :
  (0 <= a /\ Qabs a == a) \/ (a <= 0 /\ Qabs a == - a).
Proof.
  destruct (Qlt_le_dec a 0).
  - right. split; [lra | apply Qabs_neg; lra].
  - left. split; [lra | apply Qabs_pos; lra].
Qed.

(** Case analysis on every comparison and absolute value in sight, then
    linear arithmetic. *)
Ltac split_cmp :=
  repeat match goal with
  | |- context [Py.ltb ?a ?b] =>
      let E := fresh "E" in
      destruct (Py.ltb a b) eqn:E;
      [apply ltb_true_iff in E | apply ltb_false_iff in E]
  | H : context [Py.ltb ?a ?b] |- _ =>
      let E := fresh "E" in
      destruct (Py.ltb a b) eqn:E;
      [apply ltb_true_iff in E | apply ltb_false_iff in E]
  end.

Ltac split_abs_at a :=
  let Hs := fresh "Hs" in
  pose proof (Qabs_cases a) as Hs;
  generalize dependent (Qabs a); intros;
  match goal with
  | H : _ \/ _ |- _ => destruct H as [[? ?] | [? ?]]
  end.

Ltac split_abs :=
  repeat match goal with
  | |- context [Qabs ?a] => split_abs_at a
  | H : context [Qabs ?a] |- _ => split_abs_at a
  end.

Ltac py_arith :=
  unfold Py.max, Py.min, Py.abs in *;
  cbn [fst snd n u] in *;
  split_cmp; split_abs; try lra.

(** Closed comparisons of rationals are settled by evaluation. *)
Ltac by_compute := vm_compute; first [reflexivity | discriminate].

Lemma max_nonneg (b : Q) : 0 <= Py.max 0 b.
Proof. py_arith. Qed.

Lemma max_id (b : Q) : 0 <= b -> Py.max 0 b == b.
Proof. intros. py_arith. Qed.

Lemma max_clamp (b : Q) : b <= 0 -> Py.max 0 b = 0.
Proof.
  intros H. unfold Py.max. destruct (Py.ltb 0 b) eqn:E; [|reflexivity].
  apply ltb_true_iff in E. lra.
Qed.

Lemma abs_nonneg (x : Q) : 0 <= Py.abs x.
Proof. apply Qabs_nonneg. Qed.

(** ** Loops and indexing *)

Lemma repeat_loop_inv {S : Type} (P : S -> Prop) (body : S -> S) :
  (forall s, P s -> P (body s)) ->
  forall k s, P s -> P (repeat_loop k body s).
Proof.
  intros Hb k. induction k as [|k IH]; intros s Hs; simpl; auto.
Qed.

Lemma skipn_cons_inv {A : Type} (l : list A) :
  forall j x s, skipn j l = x :: s ->
  nth_error l j = Some x /\ skipn (S j) l = s.
Proof.
  induction l as [|a l IH]; intros [|j] x s H; simpl in *; try discriminate.
  - inversion H. split; reflexivity.
  - apply IH, H.
Qed.

Lemma getitem_skipn {A : Type} (l : list A) (j : nat) (x : A) (s : list A) :
  skipn j l = x :: s -> getitem l j = Ok x.
Proof.
  intros H. apply skipn_cons_inv in H as [H _]. unfold getitem. now rewrite H.
Qed.

(** ** The class invariant *)

Lemma wf_NU_init (n0 u0 : Q) : wf (NU_init n0 u0).
Proof. apply max_nonneg. Qed.

Lemma NU_eq_true_iff (x y : NU) : __eq__ x y = true <-> NU_equiv x y.
Proof.
  unfold __eq__, NU_equiv. rewrite andb_true_iff, !eqb_true_iff. tauto.
Qed.

Lemma NU_equiv_refl (x : NU) : NU_equiv x x.
Proof. split; reflexivity. Qed.

Lemma NU_init_equiv (n1 u1 n2 u2 : Q) :
  n1 == n2 -> u1 == u2 -> NU_equiv (NU_init n1 u1) (NU_init n2 u2).
Proof.
  intros Hn Hu. split; simpl; [exact Hn | py_arith].
Qed.

(** On operands that satisfy the invariant the uncertainty formula of an
    operator is itself non-negative, so the clamp of the constructor does
    not fire. *)


Lemma u_mul (x y : NU) :
  wf x -> wf y ->
  u (mul x y) == Py.abs (n x) * u y + Py.abs (n y) * u x.
Proof.
  unfold wf, mul, NU_init. intros Hx Hy. cbn [u]. apply max_id.
  pose proof (Qmult_le_0_compat _ _ (abs_nonneg (n x)) Hy).
  pose proof (Qmult_le_0_compat _ _ (abs_nonneg (n y)) Hx).
  lra.
Qed.


(** The values the documentation of the operators gives. *)

Example add_known :
  __eq__ (add (NU_init 10 1) (NU_init 5 0.5)) (NU_init 15 1.5) = true.
Proof. reflexivity. Qed.

Example mul_known :
  __eq__ (mul (NU_init 4 0.1) (NU_init 3 0.2)) (NU_init 12 1.1) = true.
Proof. reflexivity. Qed.

Example catch_known : __eq__ (catch (NU_init 5 2)) (NU_init 0 7) = true.
Proof. reflexivity. Qed.

Example flip_known : __eq__ (flip (NU_init 5 2)) (NU_init 2 5) = true.
Proof. reflexivity. Qed.

Example pow_known :
  exists r, pow (NU_init 3 0.1) 2 = Ok r /\ __eq__ r (NU_init 9 0.6) = true.
Proof. eexists. split; reflexivity. Qed.

Example weighted_mean_known :
  exists r,
    weighted_mean [NU_init 10 1; NU_init 12 1.5; NU_init 11 0.8] None = Ok r /\
    __eq__ r (NU_init 11 1.1) = true.
Proof. eexists. split; reflexivity. Qed.

(** C1. Every construction [NU(n, u)] succeeds and has [u >= 0], a negative
    [u] being clamped to 0 (so [NU(5, -3).u == 0]); and the result of [add],
    [sub], [mul], [scalar], [affine], negation, absolute value, [catch],
    [flip], and of [pow] with an exponent [k >= 1], applied to values with
    non-negative uncertainty, has [u >= 0]. *)
Theorem C1_uncertainty_nonneg :
  (forall n0 u0, 0 <= u (NU_init n0 u0)) /\
  (forall n0 u0, u0 < 0 -> u (NU_init n0 u0) = 0) /\
  u (NU_init 5 (-3)) == 0 /\
  (forall x y a b, wf x -> wf y ->
     0 <= u (add x y) /\ 0 <= u (sub x y) /\ 0 <= u (mul x y) /\
     0 <= u (scalar x a) /\ 0 <= u (affine x a b) /\ 0 <= u (negate x) /\
     0 <= u (absolute x) /\ 0 <= u (catch x) /\ 0 <= u (flip x)) /\
  (forall x k, wf x -> (1 <= k)%Z ->
     exists r, pow x k = Ok r /\ 0 <= u r).
Proof.
  split; [intros; apply max_nonneg|].
  split; [intros; cbn [NU_init u]; apply max_clamp; lra|].
  split; [reflexivity|].
  split.
  - intros x y a b _ _. repeat split; apply max_nonneg.
  - intros x k Hx Hk. unfold pow.
    destruct (k <? 1)%Z eqn:E; [apply Z.ltb_lt in E; lia|].
    eexists. split; [reflexivity|].
    apply (repeat_loop_inv wf); [|exact Hx].
    intros s _. apply wf_NU_init.
Qed.

Lemma C1_uncertainty_nonneg_witness :
  0 <= u (add (NU_init 10 1) (NU_init 5 0.5)) /\
  exists r, pow (NU_init 3 0.1) 2 = Ok r /\ 0 <= u r.
Proof.
  destruct C1_uncertainty_nonneg as (_ & _ & _ & Hop & Hpow).
  split.
  - apply (Hop (NU_init 10 1) (NU_init 5 0.5) 0 0); by_compute.
  - apply (Hpow (NU_init 3 0.1) 2%Z); [by_compute | lia].
Defined.

(** C2. For [x = NU(n, u)] with [u >= 0], [catch(x)] is [NU(0, |n| + u)]
    and [flip(x)] is [NU(u, |n|)], and both have the invariant
    [M = |n| + u] of [x]. *)
Theorem C2_catch_flip_preserve_invariant (n0 u0 : Q) (Hu : 0 <= u0) :
  let x := NU_init n0 u0 in
  invariant (catch x) == invariant x /\
  invariant (flip x) == invariant x /\
  invariant x == Py.abs n0 + u0 /\
  __eq__ (catch x) (NU_init 0 (Py.abs n0 + u0)) = true /\
  __eq__ (flip x) (NU_init u0 (Py.abs n0)) = true.
Proof.
  unfold invariant, catch, flip, __eq__, NU_init; cbn [n u].
  rewrite !andb_true_iff, !eqb_true_iff.
  repeat split; py_arith.
Qed.

Lemma C2_catch_flip_preserve_invariant_witness :
  let x := NU_init (-5) 2 in
  invariant (catch x) == invariant x /\
  invariant (flip x) == invariant x /\
  invariant x == Py.abs (-5) + 2 /\
  __eq__ (catch x) (NU_init 0 (Py.abs (-5) + 2)) = true /\
  __eq__ (flip x) (NU_init 2 (Py.abs (-5))) = true.
Proof.
  apply (C2_catch_flip_preserve_invariant (-5) 2). by_compute.
Defined.

(** C10. For every NU value [x] (so [x.u >= 0]), [flip(flip(x))] equals
    [abs(x) = NU(|x.n|, x.u)]; hence [flip(flip(x)) == x] exactly when
    [x.n >= 0]. *)
Theorem C10_flip_twice_is_absolute (x : NU) (Hx : wf x) :
  __eq__ (flip (flip x)) (absolute x) = true /\
  __eq__ (absolute x) (NU_init (Py.abs (n x)) (u x)) = true /\
  (__eq__ (flip (flip x)) x = true <-> 0 <= n x).
Proof.
  unfold wf in Hx. unfold flip, absolute, __eq__, NU_init; cbn [n u].
  rewrite !andb_true_iff, !eqb_true_iff.
  repeat split; intros; py_arith.
Qed.

Lemma C10_flip_twice_is_absolute_witness :
  let x := NU_init (-5) 2 in
  __eq__ (flip (flip x)) (absolute x) = true /\
  __eq__ (absolute x) (NU_init (Py.abs (n x)) (u x)) = true /\
  (__eq__ (flip (flip x)) x = true <-> 0 <= n x).
Proof.
  apply (C10_flip_twice_is_absolute (NU_init (-5) 2)). by_compute.
Defined.

(** ** Folds: [cumulative_sum], [cumulative_product], [pow] *)

Lemma add_equiv (x x' y : NU) :
  NU_equiv x x' -> NU_equiv (add x y) (add x' y).
Proof.
  intros [Hn Hu]. apply NU_init_equiv; [rewrite Hn | rewrite Hu]; reflexivity.
Qed.

Lemma mul_equiv (x x' y : NU) :
  NU_equiv x x' -> NU_equiv (mul x y) (mul x' y).
Proof.
  intros [Hn Hu]. apply NU_init_equiv; unfold Py.abs;
    [rewrite Hn | rewrite Hn, Hu]; reflexivity.
Qed.

Section FoldEquiv.

Variable op : NU -> NU -> NU.
Hypothesis op_equiv :
  forall x x' y, NU_equiv x x' -> NU_equiv (op x y) (op x' y).

(** A left fold takes equal seeds to equal results. *)
Lemma fold_equiv (xs : list NU) :
  forall a b, NU_equiv a b ->
  NU_equiv (fold_left op xs a) (fold_left op xs b).
Proof.
  induction xs as [|x xs IH]; intros a b H; simpl; [exact H|].
  apply IH, op_equiv, H.
Qed.

End FoldEquiv.

(** [NU(0, 0)] is neutral for [add] and [NU(1, 0)] for [mul], for operands
    that satisfy the class invariant. *)

Lemma add_zero_r (x : NU) : wf x -> NU_equiv (add x (NU_init 0 0)) x.
Proof.
  unfold wf, add, NU_init, NU_equiv. cbn [n u]. intros. split; py_arith.
Qed.

Lemma add_zero_l (x : NU) : wf x -> NU_equiv (add (NU_init 0 0) x) x.
Proof.
  unfold wf, add, NU_init, NU_equiv. cbn [n u]. intros. split; py_arith.
Qed.

Lemma mul_one_l (x : NU) : wf x -> NU_equiv (mul (NU_init 1 0) x) x.
Proof.
  unfold wf. intros Hx. split.
  - cbn [mul NU_init n]. lra.
  - rewrite u_mul by (try exact Hx; apply wf_NU_init).
    cbn [NU_init n u]. change (Py.abs 1) with 1. change (Py.max 0 0) with 0.
    generalize (Py.abs (n x)). intros. lra.
Qed.

(** C9. [cumulative_sum] is the left fold of [add] over its inputs and is
    [NU(0, 0)] on no input; [cumulative_product] is the left fold of [mul]
    and is [NU(1, 0)] on no input; and [add(x, NU(0, 0)) == x] for every NU
    value [x]. *)
Theorem C9_folds_and_identities :
  cumulative_sum [] = NU_init 0 0 /\
  cumulative_product [] = NU_init 1 0 /\
  (forall x rest, cumulative_sum (x :: rest) = fold_left add rest x) /\
  (forall x rest, cumulative_product (x :: rest) = fold_left mul rest x) /\
  (forall xs, Forall wf xs ->
     __eq__ (cumulative_sum xs) (cumulativeSum_spec xs) = true) /\
  (forall xs, Forall wf xs ->
     __eq__ (cumulative_product xs) (cumulativeProduct_spec xs) = true) /\
  (forall x, wf x -> __eq__ (add x (NU_init 0 0)) x = true).
Proof.
  repeat split; try reflexivity.
  - intros xs Hxs. apply NU_eq_true_iff.
    destruct Hxs as [|x rest Hx _]; [apply NU_equiv_refl|].
    unfold cumulativeSum_spec. simpl.
    apply (fold_equiv add add_equiv).
    split; symmetry; apply add_zero_l, Hx.
  - intros xs Hxs. apply NU_eq_true_iff.
    destruct Hxs as [|x rest Hx _]; [apply NU_equiv_refl|].
    unfold cumulativeProduct_spec. simpl.
    apply (fold_equiv mul mul_equiv).
    split; symmetry; apply mul_one_l, Hx.
  - intros x Hx. apply NU_eq_true_iff, add_zero_r, Hx.
Qed.

Lemma C9_folds_and_identities_witness :
  __eq__ (cumulative_sum [NU_init 1 0.1; NU_init 2 0.2; NU_init 3 0.3])
        (cumulativeSum_spec [NU_init 1 0.1; NU_init 2 0.2; NU_init 3 0.3])
  = true /\
  __eq__ (cumulative_product [NU_init 2 0.1; NU_init 3 0.2; NU_init 4 0.1])
        (cumulativeProduct_spec [NU_init 2 0.1; NU_init 3 0.2; NU_init 4 0.1])
  = true /\
  __eq__ (add (NU_init 10 1) (NU_init 0 0)) (NU_init 10 1) = true.
Proof.
  destruct C9_folds_and_identities as (_ & _ & _ & _ & Hs & Hp & Hz).
  split; [apply Hs; repeat constructor; by_compute|].
  split; [apply Hp; repeat constructor; by_compute|].
  apply Hz. by_compute.
Defined.

Lemma repeat_loop_fold (x : NU) (k : nat) :
  forall s, repeat_loop k (fun result => mul result x) s
            = fold_left mul (repeat x k) s.
Proof.
  induction k as [|k IH]; intros s; simpl; [reflexivity | apply IH].
Qed.

(** C6. [pow(x, k)] fails with [InvalidExponent] exactly when [k < 1] (so
    for [k = 0] and [k = -1]); for [k >= 1] it returns the cumulative
    [mul]-product of [k] copies of [x], which is [x] itself for [k = 1]. *)
Theorem C6_pow (x : NU) (k : Z) :
  (fails_with (pow x k) InvalidExponent <-> (k < 1)%Z) /\
  ((1 <= k)%Z ->
     pow x k = Ok (cumulative_product (repeat x (Z.to_nat k)))) /\
  pow x 1 = Ok x /\
  fails_with (pow x 0) InvalidExponent /\
  fails_with (pow x (-1)) InvalidExponent.
Proof.
  repeat split; try reflexivity.
  - unfold pow. destruct (k <? 1)%Z eqn:E.
    + intros _. apply Z.ltb_lt, E.
    + intros [].
  - intros Hk. unfold pow. apply Z.ltb_lt in Hk. rewrite Hk. reflexivity.
  - intros Hk. unfold pow.
    destruct (k <? 1)%Z eqn:E; [apply Z.ltb_lt in E; lia|].
    replace (Z.to_nat k) with (S (Z.to_nat (k - 1))) by lia.
    simpl. rewrite repeat_loop_fold. reflexivity.
Qed.

Lemma C6_pow_witness :
  pow (NU_init 3 0.1) 2
  = Ok (cumulative_product (repeat (NU_init 3 0.1) (Z.to_nat 2))).
Proof.
  apply (C6_pow (NU_init 3 0.1) 2). lia.
Defined.

(** ** [weighted_mean] *)

Lemma zip_scalar_by_index (xs : list NU) :
  forall weights, Py.len weights = Py.len xs ->
  map (fun '(nu, w) => scalar nu w) (combine xs weights)
  = scaled_by_index xs weights.
Proof.
  unfold scaled_by_index, Py.len.
  induction xs as [|x xs IH]; intros [|w ws] Hlen; simpl in *;
    try reflexivity; try discriminate.
  f_equal. rewrite <- seq_shift, map_map. simpl.
  apply IH. lia.
Qed.

Lemma sum_repeat_one (k : nat) :
  forall a, fold_left Qplus (repeat 1 k) a == a + inject_Z (Z.of_nat k).
Proof.
  induction k as [|k IH]; intros a.
  - simpl. change (inject_Z 0) with 0. lra.
  - cbn [repeat fold_left]. rewrite IH, Nat2Z.inj_succ, <- Z.add_1_r.
    rewrite inject_Z_plus. change (inject_Z 1) with 1. lra.
Qed.

Lemma sum_default_weights (k : nat) :
  (0 < k)%nat -> ~ Py.sum (repeat 1 k) == 0.
Proof.
  intros Hk. unfold Py.sum. rewrite sum_repeat_one.
  assert (0 < inject_Z (Z.of_nat k)).
  { change 0 with (inject_Z 0). rewrite <- Zlt_Qlt. lia. }
  lra.
Qed.

Lemma weighted_mean_ok (xs : list NU) (weights : list Q) :
  xs <> [] -> Py.len weights = Py.len xs -> ~ Py.sum weights == 0 ->
  weighted_mean xs (Some weights) = Ok (weightedMean_spec xs weights).
Proof.
  intros Hne Hl Hs. unfold weighted_mean.
  destruct xs as [|x xs']; [contradiction|].
  rewrite Hl, Nat.eqb_refl. simpl negb. cbv iota.
  apply eqb_false_iff in Hs. rewrite Hs.
  rewrite zip_scalar_by_index by exact Hl. reflexivity.
Qed.

Lemma weighted_mean_default (xs : list NU) :
  weighted_mean xs None = weighted_mean xs (Some (repeat 1 (Py.len xs))).
Proof. destruct xs; reflexivity. Qed.

Lemma weighted_mean_default_ok (xs : list NU) :
  xs <> [] ->
  weighted_mean xs None = Ok (weightedMean_spec xs (repeat 1 (Py.len xs))).
Proof.
  intros Hne. rewrite weighted_mean_default. apply weighted_mean_ok.
  - exact Hne.
  - unfold Py.len. apply repeat_length.
  - apply sum_default_weights. destruct xs; [contradiction | simpl; lia].
Qed.

(** C4. For a non-empty [xs] and weights of the same length whose sum is
    not zero, [weighted_mean] is [scalar(1/totalWeight)] applied to the
    cumulative sum of the values [scalar(weights[i], xs[i])]; omitted
    weights stand for a weight 1 for each element. *)
Theorem C4_weighted_mean (xs : list NU) (weights : list Q)
    (Hne : xs <> []) (Hlen : Py.len weights = Py.len xs)
    (Hsum : ~ Py.sum weights == 0) :
  weighted_mean xs (Some weights) = Ok (weightedMean_spec xs weights) /\
  weighted_mean xs None = weighted_mean xs (Some (repeat 1 (Py.len xs))) /\
  weighted_mean xs None = Ok (weightedMean_spec xs (repeat 1 (Py.len xs))).
Proof.
  split; [apply weighted_mean_ok; assumption|].
  split; [apply weighted_mean_default | apply weighted_mean_default_ok, Hne].
Qed.

Lemma C4_weighted_mean_witness :
  let xs := [NU_init 10 1; NU_init 12 1.5; NU_init 11 0.8] in
  let weights := [2; 1; 1] in
  weighted_mean xs (Some weights) = Ok (weightedMean_spec xs weights) /\
  weighted_mean xs None = weighted_mean xs (Some (repeat 1 (Py.len xs))) /\
  weighted_mean xs None = Ok (weightedMean_spec xs (repeat 1 (Py.len xs))).
Proof.
  apply (C4_weighted_mean [NU_init 10 1; NU_init 12 1.5; NU_init 11 0.8]
                          [2; 1; 1]).
  - discriminate.
  - reflexivity.
  - by_compute.
Defined.

(** ** [aggregate_pair] and [aggregate_sequential] *)

Lemma aggregate_pair_combinator (v1 e1 v2 e2 : Q) :
  aggregate_pair v1 e1 v2 e2 = combinator (v1, e1) (v2, e2).
Proof. reflexivity. Qed.

Section SequentialLoop.

Variables values errors : list Q.

(** Run from index [j] over the rest of both sequences, the loop is the
    left fold of the combinator over the remaining pairs; no index is out
    of range. *)
Lemma aggregate_loop :
  forall vs es j acc,
  skipn j values = vs -> skipn j errors = es ->
  List.length vs = List.length es ->
  for_range_from (List.length vs) j (fold_body values errors) acc
  = Ok (fold_left combinator (List.combine vs es) acc).
Proof.
  induction vs as [|v vs IH]; intros [|e es] j [rv re] Hv He Hlen;
    simpl in Hlen; try discriminate; [reflexivity|].
  cbn [List.length for_range_from List.combine fold_left].
  unfold fold_body at 1.
  rewrite (getitem_skipn _ _ _ _ Hv), (getitem_skipn _ _ _ _ He).
  cbn [bind]. rewrite aggregate_pair_combinator.
  apply IH.
  - apply skipn_cons_inv in Hv. tauto.
  - apply skipn_cons_inv in He. tauto.
  - lia.
Qed.

End SequentialLoop.

(** The steps of the fold over the first two sources of [H0_DATA]. *)
Example aggregate_first_two :
  exists r,
    aggregate_sequential (firstn 2 H0_DATA_n) (firstn 2 H0_DATA_u) = Ok r /\
    pair_eq r (70.22, 3.59) = true.
Proof. eexists. split; reflexivity. Qed.

(** C3. On sequences of equal length [>= 1], [aggregate_sequential] starts
    from the first pair and folds every later pair into the accumulator, in
    input order, with [combine((v1,e1),(v2,e2)) = ((v1+v2)/2,
    (e1+e2)/2 + |v1-v2|/2)]; on values [67.4, 73.04] with uncertainties
    [0.5, 1.04] the result is [(70.22, 3.59)]. *)
Theorem C3_sequential_fold (v e : Q) (vs es : list Q)
    (Hlen : Py.len (v :: vs) = Py.len (e :: es)) :
  aggregate_sequential (v :: vs) (e :: es)
  = Ok (fold_left combinator (List.combine vs es) (v, e)) /\
  (forall v1 e1 v2 e2,
     aggregate_pair v1 e1 v2 e2
     = ((v1 + v2) / 2, (e1 + e2) / 2 + Py.abs (v1 - v2) / 2)) /\
  exists r,
    aggregate_sequential [67.4; 73.04] [0.5; 1.04] = Ok r /\
    pair_eq r ((67.4 + 73.04) / 2, (0.5 + 1.04) / 2 + Py.abs (67.4 - 73.04) / 2)
    = true /\
    pair_eq r (70.22, 3.59) = true.
Proof.
  split; [|split; [reflexivity | eexists; repeat split; by_compute]].
  unfold aggregate_sequential, Py.len in *. cbn [List.length] in *.
  rewrite Hlen, Nat.eqb_refl. cbn [negb Nat.eqb getitem nth_error bind].
  unfold for_range.
  replace (S (List.length es) - 1)%nat with (List.length vs) by lia.
  apply (aggregate_loop (v :: vs) (e :: es) vs es 1); auto.
Qed.

Lemma C3_sequential_fold_witness :
  aggregate_sequential [67.4; 73.04; 73.3] [0.5; 1.04; 1.8]
  = Ok (fold_left combinator (List.combine [73.04; 73.3] [1.04; 1.8])
                  (67.4, 0.5)).
Proof.
  apply (C3_sequential_fold 67.4 0.5 [73.04; 73.3] [1.04; 1.8]). reflexivity.
Defined.

(** ** Failure modes of the aggregate entry points *)

(** C5. [weighted_mean] raises, returning no value: [EmptyInput] on an
    empty [xs]; otherwise [LengthMismatch] when the weights differ in
    length from [xs]; otherwise [ZeroTotalWeight] when the weights sum to
    exactly 0; and it returns a value in every other case.
    [aggregate_sequential] raises [LengthMismatch] when its two sequences
    differ in length, and returns [(0, 0)] on empty input. *)
Theorem C5_failure_modes :
  (forall weights, fails_with (weighted_mean [] weights) EmptyInput) /\
  (forall xs weights,
     xs <> [] -> Py.len weights <> Py.len xs ->
     fails_with (weighted_mean xs (Some weights)) LengthMismatch) /\
  (forall xs weights,
     xs <> [] -> Py.len weights = Py.len xs -> Py.sum weights == 0 ->
     fails_with (weighted_mean xs (Some weights)) ZeroTotalWeight) /\
  (forall xs weights,
     xs <> [] -> Py.len weights = Py.len xs -> ~ Py.sum weights == 0 ->
     succeeds (weighted_mean xs (Some weights))) /\
  (forall xs, xs <> [] -> succeeds (weighted_mean xs None)) /\
  (forall values errors,
     Py.len values <> Py.len errors ->
     fails_with (aggregate_sequential values errors) LengthMismatch) /\
  aggregate_sequential [] [] = Ok (0, 0).
Proof.
  split; [intros weights; reflexivity|].
  split.
  { intros [|x xs] ws Hne Hlen; [contradiction|].
    unfold weighted_mean. apply Nat.eqb_neq in Hlen. rewrite Hlen.
    reflexivity. }
  split.
  { intros [|x xs] ws Hne Hlen Hsum; [contradiction|].
    unfold weighted_mean. rewrite Hlen, Nat.eqb_refl. cbn [negb].
    apply eqb_true_iff in Hsum. rewrite Hsum. reflexivity. }
  split.
  { intros xs ws Hne Hlen Hsum.
    rewrite (weighted_mean_ok xs ws Hne Hlen Hsum). exact I. }
  split.
  { intros xs Hne. rewrite (weighted_mean_default_ok xs Hne). exact I. }
  split; [|reflexivity].
  intros values errors Hlen. unfold aggregate_sequential.
  apply Nat.eqb_neq in Hlen. rewrite Hlen. reflexivity.
Qed.

Lemma C5_failure_modes_witness :
  fails_with (weighted_mean [NU_init 10 1] (Some [1; 2])) LengthMismatch /\
  fails_with (weighted_mean [NU_init 10 1; NU_init 12 1.5] (Some [1; -1]))
             ZeroTotalWeight /\
  succeeds (weighted_mean [NU_init 10 1; NU_init 12 1.5] (Some [1; 3])) /\
  succeeds (weighted_mean [NU_init 10 1; NU_init 12 1.5] None) /\
  fails_with (aggregate_sequential [67.4; 73.04] [0.5]) LengthMismatch.
Proof.
  destruct C5_failure_modes as (_ & Hl & Hz & Hs & Hd & Ha & _).
  split; [apply Hl; [discriminate | by_compute]|].
  split; [apply Hz; [discriminate | reflexivity | by_compute]|].
  split; [apply Hs; [discriminate | reflexivity | by_compute]|].
  split; [apply Hd; discriminate|].
  apply Ha. by_compute.
Defined.

(** ** Symmetry of the combinator, order-sensitivity of the fold *)

(** C7. [aggregate_pair] is symmetric in its two argument pairs, but the
    sequential fold depends on the order: a sequence of three measurements
    and a permutation of it give different results. *)
Theorem C7_symmetric_but_order_sensitive :
  (forall v1 e1 v2 e2,
     pair_eq (aggregate_pair v1 e1 v2 e2) (aggregate_pair v2 e2 v1 e1)
     = true) /\
  exists (ms ms' : list (Q * Q)) (r r' : Q * Q),
    Py.len ms = 3%nat /\
    Permutation ms ms' /\
    aggregate_sequential (map fst ms) (map snd ms) = Ok r /\
    aggregate_sequential (map fst ms') (map snd ms') = Ok r' /\
    pair_eq r r' = false.
Proof.
  split.
  - intros v1 e1 v2 e2. unfold pair_eq, aggregate_pair. cbn [fst snd].
    rewrite andb_true_iff, !eqb_true_iff. split; py_arith.
  - exists [(67.4, 0.5); (73.04, 1.04); (73.3, 1.8)],
           [(67.4, 0.5); (73.3, 1.8); (73.04, 1.04)].
    eexists. eexists.
    split; [reflexivity|].
    split; [apply perm_skip, perm_swap|].
    split; [reflexivity|].
    split; [reflexivity|].
    by_compute.
Qed.

(** ** The overlap flag of [calculate_tension] *)

Section TensionLoops.

Variable df : list row.

Lemma calculate_tension_loops :
  calculate_tension df = for_range 0 (Py.len df) (outer_body df) [].
Proof. reflexivity. Qed.

Lemma inner_loop (i : nat) (ri : row) :
  getitem df i = Ok ri ->
  forall s j acc,
  skipn j df = s ->
  for_range_from (List.length s) j (inner_body df i) acc
  = Ok (acc ++ map (tension_of ri) s).
Proof.
  intros Hi. induction s as [|rj s IH]; intros j acc Hs.
  - simpl. now rewrite app_nil_r.
  - cbn [List.length for_range_from map]. unfold inner_body at 1.
    rewrite Hi, (getitem_skipn _ _ _ _ Hs). cbn [bind].
    rewrite (IH (S j)) by (apply skipn_cons_inv in Hs; tauto).
    now rewrite <- app_assoc.
Qed.

Lemma outer_loop :
  forall s i acc,
  skipn i df = s ->
  for_range_from (List.length s) i (outer_body df) acc
  = Ok (acc ++ all_pairs s).
Proof.
  induction s as [|ri s IH]; intros i acc Hs.
  - simpl. now rewrite app_nil_r.
  - cbn [List.length for_range_from all_pairs].
    unfold outer_body at 1, for_range, Py.len.
    assert (Hlen : (List.length df - (i + 1))%nat = List.length s).
    { pose proof (f_equal (@List.length row) Hs) as H.
      rewrite length_skipn in H. simpl in H. lia. }
    rewrite Hlen.
    destruct (skipn_cons_inv _ _ _ _ Hs) as [_ Hs'].
    rewrite (inner_loop i ri (getitem_skipn _ _ _ _ Hs) s (i + 1)%nat acc)
      by (rewrite Nat.add_1_r; exact Hs').
    cbn [bind]. rewrite (IH (S i)) by exact Hs'.
    now rewrite <- app_assoc.
Qed.

(** [calculate_tension] never raises: it returns one entry for each pair
    of rows [i < j], in the order of the two loops. *)
Lemma calculate_tension_all_pairs :
  calculate_tension df = Ok (all_pairs df).
Proof.
  rewrite calculate_tension_loops. unfold for_range, Py.len.
  rewrite Nat.sub_0_r. apply (outer_loop df 0 []). reflexivity.
Qed.

End TensionLoops.

Lemma overlaps_flag_true_iff (n1 u1 n2 u2 : Q) :
  overlaps_flag n1 u1 n2 u2 = true <->
  ~ Qmin (n1 + u1) (n2 + u2) < Qmax (n1 - u1) (n2 - u2).
Proof.
  unfold overlaps_flag. rewrite negb_true_iff, ltb_false_iff.
  destruct (Q.min_spec (n1 + u1) (n2 + u2)) as [[? Hm] | [? Hm]];
  destruct (Q.max_spec (n1 - u1) (n2 - u2)) as [[? HM] | [? HM]];
  rewrite Hm, HM; split; intros; py_arith.
Qed.

(** The flag is true exactly when the two closed intervals share a point;
    the sign of the uncertainties plays no part in this. *)
Lemma overlaps_flag_intersect (n1 u1 n2 u2 : Q) :
  overlaps_flag n1 u1 n2 u2 = true <->
  exists x, (n1 - u1 <= x /\ x <= n1 + u1) /\ (n2 - u2 <= x /\ x <= n2 + u2).
Proof.
  unfold overlaps_flag. rewrite negb_true_iff, ltb_false_iff. split.
  - intros H. exists (Py.max (n1 - u1) (n2 - u2)). py_arith.
  - intros (x & [? ?] & [? ?]). py_arith.
Qed.

(** C8. For two measurements with non-negative uncertainties the
    [overlaps] flag that [calculate_tension] computes is
    [not (min(n1+u1, n2+u2) < max(n1-u1, n2-u2))]; it is true exactly when
    the closed intervals [[n1-u1, n1+u1]] and [[n2-u2, n2+u2]] have a
    common point; for [67.4 +- 0.5] and [73.04 +- 1.04] it is false. *)
Theorem C8_overlaps (s1 s2 : string) (n1 u1 n2 u2 : Q)
    (Hu1 : 0 <= u1) (Hu2 : 0 <= u2) :
  let r1 := Row s1 n1 u1 in
  let r2 := Row s2 n2 u2 in
  (exists t, calculate_tension [r1; r2] = Ok [t] /\
     overlaps t
     = negb (Py.ltb (Py.min (n1 + u1) (n2 + u2))
                    (Py.max (n1 - u1) (n2 - u2)))) /\
  (forall df, calculate_tension df = Ok (all_pairs df)) /\
  overlaps (tension_of r1 r2) = overlaps_flag n1 u1 n2 u2 /\
  (overlaps_flag n1 u1 n2 u2 = true <->
     ~ Qmin (n1 + u1) (n2 + u2) < Qmax (n1 - u1) (n2 - u2)) /\
  (overlaps_flag n1 u1 n2 u2 = true <->
     exists x, (n1 - u1 <= x /\ x <= n1 + u1) /\
               (n2 - u2 <= x /\ x <= n2 + u2)) /\
  overlaps_flag 67.4 0.5 73.04 1.04 = false.
Proof.
  intros r1 r2.
  split; [eexists; split; reflexivity|].
  split; [apply calculate_tension_all_pairs|].
  split; [reflexivity|].
  split; [apply overlaps_flag_true_iff|].
  split; [apply overlaps_flag_intersect | reflexivity].
Qed.

Lemma C8_overlaps_witness :
  overlaps_flag 73.04 1.04 73.3 1.8 = true <->
  exists x, (73.04 - 1.04 <= x /\ x <= 73.04 + 1.04) /\
            (73.3 - 1.8 <= x /\ x <= 73.3 + 1.8).
Proof.
  apply (C8_overlaps "SH0ES 2022" "H0LiCOW 2020" 73.04 1.04 73.3 1.8);
    by_compute.
Defined.

(** * Further properties of [nu_algebra.py] *)

(** ** Operators and the conservative interval *)



(** Case analysis as in [py_arith], closed by non-linear arithmetic. *)
Ltac py_nra := py_arith; try nra.





(** X4. [is_sign_stable] is true exactly when the interval
    [[n - u, n + u]] does not contain zero. *)
Theorem X4_sign_stable_excludes_zero (x : NU) :
  is_sign_stable x = true <-> ~ contains x 0.
Proof.
  unfold is_sign_stable, contains, lower_bound, upper_bound.
  rewrite ltb_true_iff. split.
  - intros H [? ?]. py_arith.
  - intros H. py_arith; try (exfalso; apply H; split; lra).
Qed.

(** ** Relative uncertainty and sign stability *)






(** ** Overloaded operators, negation, algebraic laws *)

(** Unfold the operators and [__eq__] down to comparisons of numbers. *)
Ltac nu_unfold :=
  unfold wf, contains, invariant, lower_bound, upper_bound,
    __add__, __sub__, __mul__, __rmul__, __neg__, __abs__,
    add, sub, mul, scalar, affine, catch, flip, __eq__, NU_init in *;
  cbn [n u] in *;
  rewrite ?andb_true_iff, ?eqb_true_iff.

(** X7. A bare number as the right operand of [+], [-] and [*] behaves as
    the exact value [NU(a, 0)], and [a * x] is [x * a]. *)
Theorem X7_number_operand_is_exact (x : NU) (a : Q) :
  __eq__ (__add__ x (OfFloat a)) (__add__ x (OfNU (NU_init a 0))) = true /\
  __eq__ (__sub__ x (OfFloat a)) (__sub__ x (OfNU (NU_init a 0))) = true /\
  __eq__ (__mul__ x (OfFloat a)) (__mul__ x (OfNU (NU_init a 0))) = true /\
  __eq__ (__rmul__ x a) (__mul__ x (OfFloat a)) = true.
Proof.
  nu_unfold. change (Py.max 0 0) with 0. repeat split; py_nra.
Qed.

(** X8. Subtraction is addition of the negation; negation is an
    involution and keeps the uncertainty and the invariant [|n| + u]. *)
Theorem X8_negation (x y : NU) (Hx : wf x) (Hy : wf y) :
  __eq__ (sub x y) (add x (negate y)) = true /\
  __eq__ (negate (negate x)) x = true /\
  u (negate x) == u x /\
  invariant (negate x) == invariant x.
Proof.
  nu_unfold. change (Py.abs (-1)) with 1 in *. repeat split; py_nra.
Qed.

Lemma X8_negation_witness :
  __eq__ (sub (NU_init 10 1) (NU_init 5 0.5))
         (add (NU_init 10 1) (negate (NU_init 5 0.5))) = true /\
  __eq__ (negate (negate (NU_init 10 1))) (NU_init 10 1) = true /\
  u (negate (NU_init 10 1)) == u (NU_init 10 1) /\
  invariant (negate (NU_init 10 1)) == invariant (NU_init 10 1).
Proof.
  apply (X8_negation (NU_init 10 1) (NU_init 5 0.5)); by_compute.
Defined.












(** X12. [catch] is idempotent and absorbs [flip]; a caught value has the
    whole invariant as its uncertainty, is never sign-stable and has an
    infinite relative uncertainty. *)
Theorem X12_catch_absorbs (x : NU) (Hx : wf x) :
  __eq__ (catch (catch x)) (catch x) = true /\
  __eq__ (catch (flip x)) (catch x) = true /\
  u (catch x) == invariant x /\
  is_sign_stable (catch x) = false /\
  relative_uncertainty (catch x) = None.
Proof.
  split; [|split; [|split; [|split; [|reflexivity]]]].
  - nu_unfold. split; py_arith.
  - nu_unfold. split; py_arith.
  - nu_unfold. py_arith.
  - unfold is_sign_stable. apply ltb_false_iff. nu_unfold. py_arith.
Qed.

Lemma X12_catch_absorbs_witness :
  let x := NU_init (-5) 2 in
  __eq__ (catch (catch x)) (catch x) = true /\
  __eq__ (catch (flip x)) (catch x) = true /\
  u (catch x) == invariant x /\
  is_sign_stable (catch x) = false /\
  relative_uncertainty (catch x) = None.
Proof.
  apply (X12_catch_absorbs (NU_init (-5) 2)). by_compute.
Defined.

(** ** [cumulative_sum] and [weighted_mean], component by component *)





















(** * Further properties of [hubble_analysis.py] *)

(** ** The pairwise combinator *)





(** ** The sequential fold *)

Lemma aggregate_sequential_cons (v e : Q) (vs es : list Q) :
  List.length vs = List.length es ->
  aggregate_sequential (v :: vs) (e :: es)
  = Ok (fold_left combinator (List.combine vs es) (v, e)).
Proof.
  intros Hlen. unfold aggregate_sequential, Py.len. cbn [List.length].
  rewrite Hlen, Nat.eqb_refl. cbn [negb Nat.eqb getitem nth_error bind].
  unfold for_range.
  replace (S (List.length es) - 1)%nat with (List.length vs) by lia.
  apply (aggregate_loop (v :: vs) (e :: es) vs es 1); auto.
Qed.

Lemma combine_snoc {A B : Type} (xs : list A) :
  forall (ys : list B) (x : A) (y : B),
  List.length xs = List.length ys ->
  List.combine (xs ++ [x]) (ys ++ [y]) = List.combine xs ys ++ [(x, y)].
Proof.
  induction xs as [|a xs IH]; intros [|b ys] x y H; simpl in *;
    try discriminate; [reflexivity|].
  f_equal. apply IH. lia.
Qed.

(** X18. The fold is incremental: appending one measurement to non-empty
    sequences of equal length gives [aggregate_pair] of the previous
    result and the new measurement.  The pair [(0, 0)] returned on empty
    input is not a starting value of this kind: a single measurement is
    returned unchanged. *)
Theorem X18_sequential_incremental (values errors : list Q) (v e : Q)
    (Hne : values <> []) (Hlen : Py.len values = Py.len errors) :
  (exists val err,
     aggregate_sequential values errors = Ok (val, err) /\
     aggregate_sequential (values ++ [v]) (errors ++ [e])
     = Ok (aggregate_pair val err v e)) /\
  aggregate_sequential [v] [e] = Ok (v, e).
Proof.
  split; [|reflexivity].
  unfold Py.len in Hlen.
  destruct values as [|v0 vs]; [contradiction|].
  destruct errors as [|e0 es]; [discriminate|].
  cbn [List.length] in Hlen. injection Hlen as Hlen.
  rewrite aggregate_sequential_cons by exact Hlen.
  destruct (fold_left combinator (List.combine vs es) (v0, e0))
    as [val err] eqn:Hfold.
  exists val, err. split; [reflexivity|].
  cbn [app]. rewrite aggregate_sequential_cons
    by (rewrite !length_app; simpl; lia).
  rewrite combine_snoc by exact Hlen.
  rewrite fold_left_app, Hfold. reflexivity.
Qed.

Lemma X18_sequential_incremental_witness :
  exists val err,
    aggregate_sequential [67.4; 73.04] [0.5; 1.04] = Ok (val, err) /\
    aggregate_sequential ([67.4; 73.04] ++ [73.3]) ([0.5; 1.04] ++ [1.8])
    = Ok (aggregate_pair val err 73.3 1.8).
Proof.
  apply (X18_sequential_incremental [67.4; 73.04] [0.5; 1.04] 73.3 1.8).
  - discriminate.
  - reflexivity.
Defined.

Section FoldBounds.

Variables lo hi E : Q.




End FoldBounds.



(** ** [calculate_aggregated_h0] *)

Lemma getitem_map_skipn {A B : Type} (f : A -> B) (l : list A) (j : nat)
    (x : A) (s : list A) :
  skipn j l = x :: s -> getitem (map f l) j = Ok (f x).
Proof.
  intros H. apply (getitem_skipn _ _ _ (map f s)).
  rewrite skipn_map, H. reflexivity.
Qed.

Section AggregatedLoop.

Variable df : list row.

(** From row [j] on, the loop of [calculate_aggregated_h0] folds the
    remaining rows into the state and records one step for each. *)
Lemma h0_loop :
  forall s j val err steps,
  skipn j df = s ->
  for_range_from (List.length s) j (h0_body df) (val, err, steps)
  = Ok (fold_left agg_step (map (fun r => (row_n r, row_u r)) s) (val, err),
        steps ++ steps_from j (val, err) s).
Proof.
  induction s as [|r s IH]; intros j val err steps Hs.
  - simpl. now rewrite app_nil_r.
  - cbn [List.length for_range_from]. unfold h0_body at 1.
    rewrite (getitem_map_skipn row_n _ _ _ _ Hs).
    rewrite (getitem_map_skipn row_u _ _ _ _ Hs).
    rewrite (getitem_skipn _ _ _ _ Hs).
    cbn [bind]. unfold aggregate_pair at 1. cbv zeta. cbn [bind].
    destruct (skipn_cons_inv _ _ _ _ Hs) as [_ Hs'].
    rewrite (IH (S j) _ _ _ Hs'). rewrite <- app_assoc. reflexivity.
Qed.

End AggregatedLoop.

Lemma steps_from_index (l : list row) :
  forall i acc, map step (steps_from i acc l) = seq i (List.length l).
Proof.
  induction l as [|r l IH]; intros i acc; simpl; [reflexivity|].
  f_equal. apply IH.
Qed.

Lemma steps_from_sources (l : list row) :
  forall i acc,
  map step_source (steps_from i acc l)
  = map (fun r => ("After combining " ++ source r)%string) l.
Proof.
  induction l as [|r l IH]; intros i acc; simpl; [reflexivity|].
  f_equal. apply IH.
Qed.

Lemma steps_from_intervals (l : list row) :
  forall i acc,
  Forall (fun s => interval_low s = step_n s - step_u s /\
                   interval_high s = step_n s + step_u s)
         (steps_from i acc l).
Proof.
  induction l as [|r l IH]; intros i acc; simpl; constructor.
  - split; reflexivity.
  - apply IH.
Qed.

Lemma steps_last (l : list row) :
  forall i label acc,
  exists s,
    nth_error (step_of i label acc :: steps_from (S i) acc l) (List.length l)
    = Some s /\
    (step_n s, step_u s)
    = fold_left agg_step (map (fun r => (row_n r, row_u r)) l) acc.
Proof.
  induction l as [|r l IH]; intros i label acc.
  - exists (step_of i label acc). split; [reflexivity|].
    destruct acc; reflexivity.
  - cbn [List.length nth_error steps_from map fold_left]. apply IH.
Qed.

Lemma fold_combinator_rows (l : list row) :
  forall acc,
  fold_left combinator (List.combine (map row_n l) (map row_u l)) acc
  = fold_left agg_step (map (fun r => (row_n r, row_u r)) l) acc.
Proof.
  induction l as [|r l IH]; intros [val err]; simpl; [reflexivity|].
  apply IH.
Qed.

(** X20. On a non-empty table [calculate_aggregated_h0] returns the value
    and error that [aggregate_sequential] returns on the columns [n] and
    [u], with one recorded step per row, numbered from 0, each with the
    interval [[n - u, n + u]] of its state and labelled with the source
    of its row, the last one being the result.  On an empty table it
    raises [IndexError], where
    [aggregate_sequential] returns [(0, 0)]. *)
Theorem X20_aggregated_h0 :
  calculate_aggregated_h0 [] = Raise IndexError /\
  aggregate_sequential (map row_n []) (map row_u []) = Ok (0, 0) /\
  forall r0 rest,
    exists val err steps,
      calculate_aggregated_h0 (r0 :: rest) = Ok (val, err, steps) /\
      aggregate_sequential (map row_n (r0 :: rest)) (map row_u (r0 :: rest))
      = Ok (val, err) /\
      map step steps = seq 0 (Py.len (r0 :: rest)) /\
      map step_source steps
      = source r0
          :: map (fun r => ("After combining " ++ source r)%string) rest /\
      Forall (fun s => interval_low s = step_n s - step_u s /\
                       interval_high s = step_n s + step_u s) steps /\
      exists s, nth_error steps (Py.len rest) = Some s /\
                step_n s = val /\ step_u s = err.
Proof.
  split; [reflexivity|]. split; [reflexivity|].
  intros r0 rest.
  pose (acc := fold_left agg_step (map (fun r => (row_n r, row_u r)) rest)
                         (row_n r0, row_u r0)).
  exists (fst acc), (snd acc),
    (step_of 0 (source r0) (row_n r0, row_u r0)
       :: steps_from 1 (row_n r0, row_u r0) rest).
  split.
  { unfold calculate_aggregated_h0, for_range, Py.len.
    cbn [map getitem nth_error bind List.length app].
    rewrite length_map.
    replace (S (List.length rest) - 1)%nat with (List.length rest) by lia.
    change (for_range_from (List.length rest) 1 (h0_body (r0 :: rest))
              (row_n r0, row_u r0,
               [step_of 0 (source r0) (row_n r0, row_u r0)])
            = Ok (fst acc, snd acc,
                  step_of 0 (source r0) (row_n r0, row_u r0)
                    :: steps_from 1 (row_n r0, row_u r0) rest)).
    rewrite (h0_loop (r0 :: rest) rest 1) by reflexivity.
    fold acc. destruct acc. reflexivity. }
  split.
  { cbn [map]. rewrite aggregate_sequential_cons by (now rewrite !length_map).
    rewrite fold_combinator_rows. fold acc. destruct acc. reflexivity. }
  split.
  { cbn [map step_of step]. rewrite steps_from_index. reflexivity. }
  split.
  { cbn [map step_of step_source]. rewrite steps_from_sources. reflexivity. }
  split.
  { constructor; [split; reflexivity | apply steps_from_intervals]. }
  destruct (steps_last rest 0 (source r0) (row_n r0, row_u r0))
    as (s & Hs & Hacc).
  exists s. split; [exact Hs|]. fold acc in Hacc.
  destruct acc. injection Hacc as -> ->. split; reflexivity.
Qed.

(** ** The tension table and the intervals *)

Lemma all_pairs_length (df : list row) :
  (2 * List.length (all_pairs df)
   = List.length df * (List.length df - 1))%nat.
Proof.
  induction df as [|r rest IH]; [reflexivity|].
  cbn [all_pairs List.length]. rewrite length_app, length_map.
  replace (S (List.length rest) - 1)%nat with (List.length rest) by lia.
  nia.
Qed.

Lemma all_pairs_delta (df : list row) :
  Forall (fun t => 0 <= delta_H0 t) (all_pairs df).
Proof.
  induction df as [|r rest IH]; [constructor|].
  cbn [all_pairs]. apply Forall_app. split; [|exact IH].
  apply Forall_map, Forall_forall. intros r' _. apply abs_nonneg.
Qed.

(** X21. [calculate_tension] never raises; for a table of [N] rows it
    returns [N * (N - 1) / 2] entries (none for an empty or one-row
    table), each with a non-negative [delta_H0]. *)
Theorem X21_tension_table (df : list row) :
  exists tensions,
    calculate_tension df = Ok tensions /\
    (2 * Py.len tensions = Py.len df * (Py.len df - 1))%nat /\
    Forall (fun t => 0 <= delta_H0 t) tensions.
Proof.
  exists (all_pairs df). split; [apply calculate_tension_all_pairs|].
  split; [apply all_pairs_length | apply all_pairs_delta].
Qed.



(** * Closed forms for [pow] and for the relative uncertainty of a product *)









